(** * gitlab-ci-pipelines-exporter: the polling loop of [main.go]

    A shallow embedding of [getProject], [taskOnce] and the body of [task],
    with the Prometheus registry, the log and the GitLab client made
    explicit, followed by the properties of the polling loop. *)

From Stdlib Require Import ZArith Lia.
From stdpp Require Import base option list strings gmap fin_maps.

Local Open Scope string_scope.
Local Open Scope list_scope.
Local Open Scope Z_scope.

(** ** Values of the Go runtime and of package [time] *)

(** A [float64] sample.  The program only produces [float64(n)] for an
    integer [n] and [Duration.Seconds()], which package [time] computes as
    [float64(sec) + float64(nsec)/1e9]; a sample is kept as that pair, so
    that [whole] counts seconds and [nanos] the remaining nanoseconds. *)
Record float64 : Type := F64 { whole : Z; nanos : Z }.

#[global] Instance float64_eq_dec : EqDecision float64.
Proof. solve_decision. Defined.

Definition float64_of_int (n : Z) : float64 := F64 n 0.

Module time.

(** [time.Duration] is an [int64] count of nanoseconds; an instant is
    kept as its offset in nanoseconds from a fixed epoch. *)
Definition Second : Z := 1000000000.
Definition minDuration : Z := - 2 ^ 63.
Definition maxDuration : Z := 2 ^ 63 - 1.

(** Two's complement wrap-around of [int64] arithmetic. *)
Definition wrap64 (z : Z) : Z := (z + 2 ^ 63) mod 2 ^ 64 - 2 ^ 63.

(** [t.Sub(u)]: the difference, saturated to the range of [Duration]. *)
Definition Sub (t u : Z) : Z :=
  if t - u <? minDuration then minDuration
  else if maxDuration <? t - u then maxDuration
  else t - u.

(** [time.Since(t)] is [time.Now().Sub(t)]. *)
Definition Since (now t : Z) : Z := Sub now t.

(** [lessThanHalf(x, y)] is [uint64(x)+uint64(x) < uint64(y)]. *)
Definition lessThanHalf (x y : Z) : bool :=
  (x mod 2 ^ 64 + x mod 2 ^ 64) mod 2 ^ 64 <? y mod 2 ^ 64.

(** [d.Round(m)]: nearest multiple of [m], halfway values away from
    zero, the extreme [Duration] when the result does not fit. *)
Definition Round (d m : Z) : Z :=
  if m <=? 0 then d
  else
    let r := Z.rem d m in
    if d <? 0 then
      let r := wrap64 (- r) in
      if lessThanHalf r m then wrap64 (d + r)
      else
        let d1 := wrap64 (d - m + r) in
        if d1 <? d then d1 else minDuration
    else
      if lessThanHalf r m then wrap64 (d - r)
      else
        let d1 := wrap64 (d + m - r) in
        if d <? d1 then d1 else maxDuration.

(** [d.Seconds()]. *)
Definition Seconds (d : Z) : float64 :=
  F64 (Z.quot d Second) (Z.rem d Second).

End time.

(** ** The data of [main.go] and of the GitLab client *)

(** [type project struct { Name string; Ref string }] *)
Record project : Type := Build_project { Name : string; Ref : string }.

#[global] Instance project_eq_dec : EqDecision project.
Proof. solve_decision. Defined.

(** [type config struct]: the fields the polling loop reads. *)
Record config : Type := Build_config {
  PollingIntervalSeconds : Z;
  Projects : list project
}.

Module gitlab.

(** [gitlab.Project]: the fields read by [main.go]. *)
Record Project : Type := Build_Project {
  Project_ID : Z;
  Project_Name : string;
  Project_PathWithNamespace : string
}.

(** An element of the list returned by [ListProjectPipelines]. *)
Record PipelineInfo : Type := Build_PipelineInfo {
  Info_ID : Z;
  Info_Status : string
}.

(** [gitlab.Pipeline]; [CreatedAt] is a [*time.Time], nil as [None]. *)
Record Pipeline : Type := Build_Pipeline {
  Pipeline_ID : Z;
  Pipeline_Status : string;
  Pipeline_Duration : Z;
  Pipeline_CreatedAt : option Z
}.

(** What the server answers to one task: a value or the text of the
    error.  The client is an input of the model. *)
Record Client : Type := Build_Client {
  GetProject : string -> Project + string;
  ListProjectPipelines : Z -> string -> list PipelineInfo + string;
  GetPipeline : Z -> Z -> Pipeline + string;
  ListProjects : list Project + string
}.

(** The requests a task sends, in order. *)
Inductive Call : Type :=
| CallGetProject (name : string)
| CallListProjectPipelines (pid : Z) (ref : string)
| CallGetPipeline (pid : Z) (id : Z)
| CallListProjects.

End gitlab.

(** ** The Prometheus registry *)

(** A series of the two-label families is keyed by [(project, ref)], a
    series of [status] by [(project, ref, status)]. *)
Record Registry : Type := Build_Registry {
  timeSinceLastRun : gmap (string * string) float64;
  lastRunDuration : gmap (string * string) float64;
  runCount : gmap (string * string) nat;
  status : gmap (string * string * string) float64
}.

Definition empty_registry : Registry := Build_Registry ∅ ∅ ∅ ∅.

(** [vec.WithLabelValues(k)]: the series of [k], created at zero when the
    family does not hold it yet. *)
Definition WithLabelValues {K V} `{Countable K} (zero : V) (k : K)
    (m : gmap K V) : gmap K V :=
  match m !! k with
  | Some _ => m
  | None => <[k := zero]> m
  end.

(** [vec.WithLabelValues(k).Set(v)] *)
Definition gauge_Set {K} `{Countable K} (k : K) (v : float64)
    (m : gmap K float64) : gmap K float64 :=
  <[k := v]> (WithLabelValues (float64_of_int 0) k m).

(** [vec.WithLabelValues(k).Inc()] *)
Definition counter_Inc {K} `{Countable K} (k : K) (m : gmap K nat) : gmap K nat :=
  let m' := WithLabelValues 0%nat k m in
  <[k := S (default 0%nat (m' !! k))]> m'.

(** ** The state of the process and the monad of a task *)

Inductive Arg : Type := AStr (s : string) | AInt (z : Z).

(** A line of the log: the format and its arguments. *)
Record LogLine : Type := Build_LogLine { format : string; args : list Arg }.

Record State : Type := Build_State {
  metrics : Registry;
  logs : list LogLine;
  calls : list gitlab.Call
}.

Definition init_state : State := Build_State empty_registry [] [].

(** How a computation ends: it returns, the process exits through
    [log.Fatalf], or it panics on a nil pointer.  The state reached is
    kept in each case. *)
Inductive Result (A : Type) : Type :=
| Done (a : A) (s : State)
| Exit (s : State)
| Panic (s : State).
Arguments Done {A} a s.
Arguments Exit {A} s.
Arguments Panic {A} s.

Definition state_of {A} (r : Result A) : State :=
  match r with Done _ s | Exit s | Panic s => s end.

Definition M (A : Type) : Type := State -> Result A.

#[global] Instance M_ret : MRet M := fun A a s => Done a s.

#[global] Instance M_bind : MBind M := fun A B f c s =>
  match c s with
  | Done a s' => f a s'
  | Exit s' => Exit s'
  | Panic s' => Panic s'
  end.

Definition modify_metrics (f : Registry -> Registry) : M unit := fun s =>
  Done tt (Build_State (f (metrics s)) (logs s) (calls s)).

Definition log_Printf (fmt : string) (a : list Arg) : M unit := fun s =>
  Done tt (Build_State (metrics s) (logs s ++ [Build_LogLine fmt a]) (calls s)).

(** [log.Fatalf]: the line is written and the process exits with status 1. *)
Definition log_Fatalf {A} (fmt : string) (a : list Arg) : M A := fun s =>
  Exit (Build_State (metrics s) (logs s ++ [Build_LogLine fmt a]) (calls s)).

(** A request to the server: recorded, then answered by the client. *)
Definition request {A} (c : gitlab.Call) (answer : A) : M A := fun s =>
  Done answer (Build_State (metrics s) (logs s) (calls s ++ [c])).

(** Dereference of a pointer: a nil pointer panics. *)
Definition deref {A} (p : option A) : M A := fun s =>
  match p with
  | Some a => Done a s
  | None => Panic s
  end.

(** The pointer returned along with an error is nil. *)
Definition pointer_of {A} (r : A + string) : option A :=
  match r with
  | inl a => Some a
  | inr _ => None
  end.

Fixpoint for_range {A} (l : list A) (body : A -> M unit) : M unit :=
  match l with
  | [] => mret tt
  | x :: l' => body x;; for_range l' body
  end.

(** The writes to the four families, on the registry and as steps of a
    task. *)
Definition touch_runCount (k : string * string) (r : Registry) : Registry :=
  Build_Registry (timeSinceLastRun r) (lastRunDuration r)
    (WithLabelValues 0%nat k (runCount r)) (status r).

Definition inc_runCount (k : string * string) (r : Registry) : Registry :=
  Build_Registry (timeSinceLastRun r) (lastRunDuration r)
    (counter_Inc k (runCount r)) (status r).

Definition set_lastRunDuration (k : string * string) (v : float64)
    (r : Registry) : Registry :=
  Build_Registry (timeSinceLastRun r) (gauge_Set k v (lastRunDuration r))
    (runCount r) (status r).

Definition set_status (k : string * string * string) (v : float64)
    (r : Registry) : Registry :=
  Build_Registry (timeSinceLastRun r) (lastRunDuration r)
    (runCount r) (gauge_Set k v (status r)).

Definition set_timeSinceLastRun (k : string * string) (v : float64)
    (r : Registry) : Registry :=
  Build_Registry (gauge_Set k v (timeSinceLastRun r)) (lastRunDuration r)
    (runCount r) (status r).

Definition runCount_WithLabelValues (k : string * string) : M unit :=
  modify_metrics (touch_runCount k).

Definition runCount_Inc (k : string * string) : M unit :=
  modify_metrics (inc_runCount k).

Definition lastRunDuration_Set (k : string * string) (v : float64) : M unit :=
  modify_metrics (set_lastRunDuration k v).

Definition status_Set (k : string * string * string) (v : float64) : M unit :=
  modify_metrics (set_status k v).

Definition timeSinceLastRun_Set (k : string * string) (v : float64) : M unit :=
  modify_metrics (set_timeSinceLastRun k v).

(** ** [main.go] *)

(** [func getProject(p project, gc *gitlab.Client) *gitlab.Project] *)
Definition getProject (p : project) (gc : gitlab.Client) : M gitlab.Project :=
  r ← request (gitlab.CallGetProject (Name p)) (gitlab.GetProject gc (Name p));
  match r with
  | inr e =>
      log_Fatalf "Unable to fetch project '%v' from the GitLab API : %v"
        [AStr (Name p); AStr e]
  | inl gp => mret gp
  end.

(** The status values exposed, [[]string{"success", "failed", "running"}]. *)
Definition statuses : list string := ["success"; "failed"; "running"].

(** The test of line 105 on the local [lastPipeline]. *)
Definition changed (lastPipeline : option gitlab.Pipeline)
    (first : gitlab.PipelineInfo) : bool :=
  match lastPipeline with
  | None => true
  | Some l =>
      negb (gitlab.Pipeline_ID l =? gitlab.Info_ID first)
      || negb (String.eqb (gitlab.Pipeline_Status l) (gitlab.Info_Status first))
  end.

(** [func taskOnce(p project, config *config, gc *gitlab.Client)], run at
    the instant [now].  [lastPipeline] is a local variable of the
    function, nil when the function starts. *)
Definition taskOnce (p : project) (gc : gitlab.Client) (now : Z) : M unit :=
  gp ← getProject p gc;
  log_Printf "--> Polling ID: %v | %v:%v"
    [AInt (gitlab.Project_ID gp); AStr (Name p); AStr (Ref p)];;
  let lastPipeline : option gitlab.Pipeline := None in
  runCount_WithLabelValues (Name p, Ref p);;
  r ← request (gitlab.CallListProjectPipelines (gitlab.Project_ID gp) (Ref p))
        (gitlab.ListProjectPipelines gc (gitlab.Project_ID gp) (Ref p));
  match r with
  | inr e =>
      log_Fatalf "Unable to get pipelines for project %s : %v"
        [AStr (gitlab.Project_Name gp); AStr e]
  | inl pipelines =>
      match pipelines with
      | [] => mret tt
      | first :: _ =>
          lastPipeline ←
            (if changed lastPipeline first then
               (match lastPipeline with
                | Some _ => runCount_Inc (Name p, Ref p)
                | None => mret tt
                end);;
               fetched ← request
                 (gitlab.CallGetPipeline (gitlab.Project_ID gp) (gitlab.Info_ID first))
                 (gitlab.GetPipeline gc (gitlab.Project_ID gp) (gitlab.Info_ID first));
               let lastPipeline := pointer_of fetched in
               lp ← deref lastPipeline;
               lastRunDuration_Set (Name p, Ref p)
                 (float64_of_int (gitlab.Pipeline_Duration lp));;
               for_range statuses (fun s =>
                 if String.eqb s (gitlab.Pipeline_Status lp)
                 then status_Set (Name p, Ref p, s) (float64_of_int 1)
                 else status_Set (Name p, Ref p, s) (float64_of_int 0));;
               mret lastPipeline
             else mret lastPipeline);
          lp ← deref lastPipeline;
          createdAt ← deref (gitlab.Pipeline_CreatedAt lp);
          timeSinceLastRun_Set (Name p, Ref p)
            (time.Seconds (time.Round (time.Since now createdAt) time.Second))
      end
  end.

(** The goroutines started by one pass of the loop of [task] over
    [config.Projects]: the arguments of the [go taskOnce(...)] statements,
    in the order they are started. *)
Fixpoint launch (gc : gitlab.Client) (ps : list project) : M (list project) :=
  match ps with
  | [] => mret []
  | p :: rest =>
      started ←
        (if String.eqb (Name p) "*" then
           log_Printf "-> Wildcard detected: Pulling all owned projects with ref %s"
             [AStr (Ref p)];;
           r ← request gitlab.CallListProjects (gitlab.ListProjects gc);
           match r with
           | inr e =>
               log_Fatalf "Unable to fetch all projects from the GitLab API : %v"
                 [AStr e]
           | inl projects =>
               mret (map (fun pwild =>
                      Build_project (gitlab.Project_PathWithNamespace pwild) (Ref p))
                    projects)
           end
         else mret [p]);
      later ← launch gc rest;
      mret (started ++ later)
  end.

(** A poll: one run of [taskOnce], with what the server answers to it and
    the instant it runs at. *)
Record Poll : Type := Build_Poll {
  target : project;
  client : gitlab.Client;
  instant : Z
}.

Definition run_poll (q : Poll) : M unit :=
  taskOnce (target q) (client q) (instant q).

(** The polls of a process, one after the other. *)
Definition run_polls (qs : list Poll) : M unit := for_range qs run_poll.

(** One pass of the loop of [task]: the goroutines it starts, each run to
    its end in the order it was started. *)
Definition task_cycle (cfg : config) (gc : gitlab.Client) (now : Z) : M unit :=
  ts ← launch gc (Projects cfg);
  run_polls (map (fun t => Build_Poll t gc now) ts).

(** The loop of [task], one pass per state of the server. *)
Definition task (cfg : config) (worlds : list (gitlab.Client * Z)) : M unit :=
  for_range worlds (fun w => task_cycle cfg w.1 w.2).

(** ** Observations on the registry *)

Definition key (p : project) : string * string := (Name p, Ref p).

(** The poll reaches the metric update: the project is found and the list
    of its pipelines is not empty. *)
Definition observes (q : Poll) : option gitlab.PipelineInfo :=
  match gitlab.GetProject (client q) (Name (target q)) with
  | inl gp =>
      match gitlab.ListProjectPipelines (client q) (gitlab.Project_ID gp)
              (Ref (target q)) with
      | inl (first :: _) => Some first
      | _ => None
      end
  | inr _ => None
  end.

(** No poll of the history observed a pipeline for the key [k]. *)
Definition never_observed (k : string * string) (qs : list Poll) : bool :=
  forallb (fun q => negb (bool_decide (key (target q) = k))
                    || negb (bool_decide (is_Some (observes q)))) qs.

(** No series of any family carries the key [k]. *)
Definition no_series (r : Registry) (k : string * string) : Prop :=
  timeSinceLastRun r !! k = None /\ lastRunDuration r !! k = None /\
  runCount r !! k = None /\
  forall s : string, status r !! (k.1, k.2, s) = None.



(** ** A server and the scenario of the specification *)

Module Scenario.

Definition proj_a : project := Build_project "proj-a" "main".
Definition gp_a : gitlab.Project := gitlab.Build_Project 7 "proj-a" "group/proj-a".

(** A server that knows [proj-a] only, lists [infos] for it and answers
    every detail request with [detail]. *)
Definition server (infos : list gitlab.PipelineInfo)
    (detail : gitlab.Pipeline + string) : gitlab.Client :=
  gitlab.Build_Client
    (fun name => if String.eqb name "proj-a" then inl gp_a else inr "404 Not Found")
    (fun _ _ => inl infos)
    (fun _ _ => detail)
    (inl [gp_a]).

(** The instant [T] the pipeline 101 was created at, in nanoseconds. *)
Definition T : Z := 1600000000 * time.Second.

Definition running_101 : Poll :=
  Build_Poll proj_a
    (server [gitlab.Build_PipelineInfo 101 "running"]
            (inl (gitlab.Build_Pipeline 101 "running" 0 (Some T))))
    (T + 400000000).

Definition success_101 (duration : Z) (after : Z) : Poll :=
  Build_Poll proj_a
    (server [gitlab.Build_PipelineInfo 101 "success"]
            (inl (gitlab.Build_Pipeline 101 "success" duration (Some T))))
    (T + after * time.Second).

Definition pending_102 : Poll :=
  Build_Poll proj_a
    (server [gitlab.Build_PipelineInfo 102 "pending"]
            (inl (gitlab.Build_Pipeline 102 "pending" 0 (Some T))))
    (T + 30 * time.Second).

Definition no_pipeline : Poll :=
  Build_Poll proj_a (server [] (inr "404 Not Found")) T.

End Scenario.


(** What an observing poll writes before it reads [CreatedAt]: the
    duration gauge, then the three status gauges in the order of
    [statuses]. *)
Definition record_detail (p : project) (lp : gitlab.Pipeline) (r : Registry) : Registry :=
  fold_left
    (fun r s =>
       set_status (Name p, Ref p, s)
         (float64_of_int (if String.eqb s (gitlab.Pipeline_Status lp) then 1 else 0)) r)
    statuses
    (set_lastRunDuration (key p)
       (float64_of_int (gitlab.Pipeline_Duration lp)) r).

(** The lines of the log. *)
Definition polling_line (p : project) (gp : gitlab.Project) : LogLine :=
  Build_LogLine "--> Polling ID: %v | %v:%v"
    [AInt (gitlab.Project_ID gp); AStr (Name p); AStr (Ref p)].

Definition project_error_line (p : project) (e : string) : LogLine :=
  Build_LogLine "Unable to fetch project '%v' from the GitLab API : %v"
    [AStr (Name p); AStr e].

Definition pipelines_error_line (gp : gitlab.Project) (e : string) : LogLine :=
  Build_LogLine "Unable to get pipelines for project %s : %v"
    [AStr (gitlab.Project_Name gp); AStr e].

(** The platform API error a poll meets while it fetches the project or
    lists its pipelines, as the line logged for it. *)
Definition platform_error (q : Poll) : option LogLine :=
  match gitlab.GetProject (client q) (Name (target q)) with
  | inr e => Some (project_error_line (target q) e)
  | inl gp =>
      match gitlab.ListProjectPipelines (client q) (gitlab.Project_ID gp)
              (Ref (target q)) with
      | inr e => Some (pipelines_error_line gp e)
      | inl _ => None
      end
  end.

Definition is_Panic {A} (r : Result A) : bool :=
  match r with Panic _ => true | _ => false end.

Definition is_Done {A} (r : Result A) : bool :=
  match r with Done _ _ => true | _ => false end.



(** A detail of a pipeline was fetched and recorded for [k]. *)
Definition seen (r : Registry) (k : string * string) : Prop :=
  is_Some (lastRunDuration r !! k).

(** The instant [now] is within the range of [Duration] of [t], half a
    second from its ends at least. *)
Definition elapsed_in_range (now t : Z) : Prop :=
  time.minDuration + time.Second <= now - t <= time.maxDuration - time.Second.

(** ** The start of the process *)

(** The field [Gitlab] of [config], read by [main] only. *)
Record GitlabSettings : Type := Build_GitlabSettings {
  URL : string;
  Token : string
}.

(** [func main()], up to the loop it starts.  [configFile] is what
    [ioutil.ReadFile] returns for the configured path and [unmarshal] what
    [yaml.Unmarshal] makes of the content; the loop of [task] runs one
    pass per element of [worlds].  The HTTP server is left out. *)
Definition main (configFile : string + string)
    (unmarshal : string -> (GitlabSettings * config) + string)
    (worlds : list (gitlab.Client * Z)) : M unit :=
  match configFile with
  | inr e => log_Fatalf "Couldn't open config file : %v" [AStr e]
  | inl content =>
      match unmarshal content with
      | inr e => log_Fatalf "Unable to parse config file: %v" [AStr e]
      | inl (settings, cfg) =>
          if (length (Projects cfg) <? 1)%nat then
            log_Fatalf
              "You need to configure at least one project/ref to poll, none given" []
          else
            log_Printf "-> Starting exporter" [];;
            log_Printf "-> Polling %v every %vs"
              [AStr (URL settings); AInt (PollingIntervalSeconds cfg)];;
            log_Printf "-> %v project(s) configured"
              [AInt (Z.of_nat (length (Projects cfg)))];;
            task cfg worlds
      end
  end.

(** ** What a poll writes *)

(** The detail a poll fetches: the project is found, its list of
    pipelines is not empty and the detail request for the first entry
    succeeds. *)
Definition detail_of (q : Poll) : option gitlab.Pipeline :=
  match gitlab.GetProject (client q) (Name (target q)) with
  | inl gp =>
      match gitlab.ListProjectPipelines (client q) (gitlab.Project_ID gp)
              (Ref (target q)) with
      | inl (first :: _) =>
          pointer_of (gitlab.GetPipeline (client q) (gitlab.Project_ID gp)
                        (gitlab.Info_ID first))
      | _ => None
      end
  | inr _ => None
  end.

(** The poll finds its project. *)
Definition resolves (q : Poll) : bool :=
  match gitlab.GetProject (client q) (Name (target q)) with
  | inl _ => true
  | inr _ => false
  end.

(** The seconds a poll at [now] reports for a pipeline created at [t]. *)
Definition elapsed_seconds (now t : Z) : float64 :=
  time.Seconds (time.Round (time.Since now t) time.Second).

(** The samples a poll writes for the key of its target, family by
    family; [None] where it writes nothing. *)
Definition written_duration (q : Poll) : option float64 :=
  lp ← detail_of q; Some (float64_of_int (gitlab.Pipeline_Duration lp)).

Definition written_status (q : Poll) (st : string) : option float64 :=
  lp ← detail_of q;
  if bool_decide (st ∈ statuses)
  then Some (float64_of_int (if String.eqb st (gitlab.Pipeline_Status lp) then 1 else 0))
  else None.

Definition written_time (q : Poll) : option float64 :=
  lp ← detail_of q;
  t ← gitlab.Pipeline_CreatedAt lp;
  Some (elapsed_seconds (instant q) t).

(** The registry a poll leaves, as a function of the registry it finds. *)
Definition effect (q : Poll) (r : Registry) : Registry :=
  metrics (state_of (run_poll q (Build_State r [] []))).

(** The poll returns: it neither exits nor panics. *)
Definition returns (q : Poll) : bool :=
  is_Done (run_poll q init_state).

(** The client that hands out the newest entry only of every list of
    pipelines. *)
Definition newest_only (gc : gitlab.Client) : gitlab.Client :=
  gitlab.Build_Client
    (gitlab.GetProject gc)
    (fun pid ref =>
       match gitlab.ListProjectPipelines gc pid ref with
       | inl (first :: _) => inl [first]
       | answer => answer
       end)
    (gitlab.GetPipeline gc)
    (gitlab.ListProjects gc).

(** Every series of [r] is a series of [r']. *)
Definition series_kept (r r' : Registry) : Prop :=
  (forall k, is_Some (timeSinceLastRun r !! k) -> is_Some (timeSinceLastRun r' !! k)) /\
  (forall k, is_Some (lastRunDuration r !! k) -> is_Some (lastRunDuration r' !! k)) /\
  (forall k, is_Some (runCount r !! k) -> is_Some (runCount r' !! k)) /\
  (forall k, is_Some (status r !! k) -> is_Some (status r' !! k)).


(** ** The steps of a task *)

Section Steps.

Context (p : project) (gc : gitlab.Client) (now : Z) (s : State).

(** The outcome of [taskOnce], branch by branch. *)
Lemma taskOnce_eq :
  taskOnce p gc now s =
  match gitlab.GetProject gc (Name p) with
  | inr e =>
      Exit (Build_State (metrics s) (logs s ++ [project_error_line p e])
              (calls s ++ [gitlab.CallGetProject (Name p)]))
  | inl gp =>
      let r1 := touch_runCount (key p) (metrics s) in
      let l1 := logs s ++ [polling_line p gp] in
      let c1 := (calls s ++ [gitlab.CallGetProject (Name p)])
                ++ [gitlab.CallListProjectPipelines (gitlab.Project_ID gp) (Ref p)] in
      match gitlab.ListProjectPipelines gc (gitlab.Project_ID gp) (Ref p) with
      | inr e => Exit (Build_State r1 (l1 ++ [pipelines_error_line gp e]) c1)
      | inl [] => Done tt (Build_State r1 l1 c1)
      | inl (first :: _) =>
          let c2 := c1 ++ [gitlab.CallGetPipeline (gitlab.Project_ID gp)
                             (gitlab.Info_ID first)] in
          match gitlab.GetPipeline gc (gitlab.Project_ID gp) (gitlab.Info_ID first) with
          | inr _ => Panic (Build_State r1 l1 c2)
          | inl lp =>
              let r2 := record_detail p lp r1 in
              match gitlab.Pipeline_CreatedAt lp with
              | None => Panic (Build_State r2 l1 c2)
              | Some createdAt =>
                  Done tt (Build_State
                    (set_timeSinceLastRun (key p)
                       (time.Seconds (time.Round (time.Since now createdAt) time.Second))
                       r2) l1 c2)
              end
          end
      end
  end.
Proof.
  unfold taskOnce, getProject, mbind, M_bind, request, mret, M_ret.
  destruct (gitlab.GetProject gc (Name p)) as [gp|e]; [|reflexivity].
  cbn -[String.eqb time.Round time.Seconds time.Since].
  destruct (gitlab.ListProjectPipelines gc (gitlab.Project_ID gp) (Ref p))
    as [[|first rest]|e]; try reflexivity.
  cbn -[String.eqb time.Round time.Seconds time.Since].
  destruct (gitlab.GetPipeline gc (gitlab.Project_ID gp) (gitlab.Info_ID first))
    as [lp|e]; [|reflexivity].
  cbn -[String.eqb time.Round time.Seconds time.Since].
  unfold record_detail, statuses; cbn [fold_left].
  destruct (String.eqb "success" (gitlab.Pipeline_Status lp));
    destruct (String.eqb "failed" (gitlab.Pipeline_Status lp));
    destruct (String.eqb "running" (gitlab.Pipeline_Status lp));
    cbv [mbind M_bind mret M_ret status_Set modify_metrics deref];
    cbn -[time.Round time.Seconds time.Since];
    destruct (gitlab.Pipeline_CreatedAt lp); reflexivity.
Qed.

End Steps.

(** ** Lookups in the families after a write *)

Section Families.

Context {K : Type} `{Countable K}.

Lemma lookup_WithLabelValues {V} (zero : V) (k k' : K) (m : gmap K V) :
  WithLabelValues zero k m !! k' =
  if decide (k = k') then Some (default zero (m !! k)) else m !! k'.
Proof.
  unfold WithLabelValues.
  destruct (m !! k) as [v|] eqn:Hk; case_decide; subst; simplify_map_eq; done.
Qed.

Lemma lookup_gauge_Set (k k' : K) (v : float64) (m : gmap K float64) :
  gauge_Set k v m !! k' = if decide (k = k') then Some v else m !! k'.
Proof.
  unfold gauge_Set. rewrite lookup_insert, lookup_WithLabelValues.
  case_decide; done.
Qed.

Lemma lookup_counter_Inc (k k' : K) (m : gmap K nat) :
  counter_Inc k m !! k' =
  if decide (k = k') then Some (S (default 0%nat (m !! k))) else m !! k'.
Proof.
  unfold counter_Inc. rewrite lookup_insert, !lookup_WithLabelValues.
  case_decide; [|done]. by rewrite decide_True.
Qed.

End Families.

Section Detail.

Context (p : project) (lp : gitlab.Pipeline) (r : Registry).

Lemma record_detail_timeSinceLastRun :
  timeSinceLastRun (record_detail p lp r) = timeSinceLastRun r.
Proof. reflexivity. Qed.

Lemma record_detail_runCount :
  runCount (record_detail p lp r) = runCount r.
Proof. reflexivity. Qed.

Lemma record_detail_lastRunDuration (k : string * string) :
  lastRunDuration (record_detail p lp r) !! k =
  if decide (key p = k)
  then Some (float64_of_int (gitlab.Pipeline_Duration lp))
  else lastRunDuration r !! k.
Proof. cbn. apply lookup_gauge_Set. Qed.

(** A status gauge of the target reads 1 when its label is the status
    of the detail and 0 otherwise. *)
Lemma record_detail_status (st : string) :
  st ∈ statuses ->
  status (record_detail p lp r) !! (Name p, Ref p, st) =
  Some (float64_of_int (if String.eqb st (gitlab.Pipeline_Status lp) then 1 else 0)).
Proof.
  intros Hst. unfold statuses in Hst.
  cbn -[String.eqb]. rewrite !lookup_gauge_Set.
  repeat (apply elem_of_cons in Hst as [->|Hst]);
    [| | |by apply elem_of_nil in Hst];
    repeat (case_decide; simplify_eq; try done).
Qed.

(** The status gauges of the other keys, and the labels outside
    [statuses], are not written. *)
Lemma record_detail_status_other (a b st : string) :
  (a, b) <> key p \/ st ∉ statuses ->
  status (record_detail p lp r) !! (a, b, st) = status r !! (a, b, st).
Proof.
  intros Hother. cbn -[String.eqb]. rewrite !lookup_gauge_Set.
  repeat (case_decide; simplify_eq);
    try done; destruct Hother as [Hk|Hst]; try (by destruct Hk);
    exfalso; apply Hst; unfold statuses; set_solver.
Qed.

End Detail.

(** ** One poll *)

(** Case analysis on the answers of the server, along [taskOnce_eq]. *)
Ltac poll_cases :=
  rewrite taskOnce_eq;
  repeat match goal with
    | |- context [match ?x with _ => _ end] =>
        match type of x with
        | sum _ _ => destruct x as [?|?] eqn:?
        | list _ => destruct x as [|? ?] eqn:?
        | option _ => destruct x as [?|] eqn:?
        end
    end;
  cbn [state_of metrics logs calls].

Section OnePoll.

Context (p : project) (gc : gitlab.Client) (now : Z) (s : State).

Let after : Registry := metrics (state_of (taskOnce p gc now s)).

(** A poll leaves the series of every other key as they are. *)
Lemma taskOnce_frame (k : string * string) :
  k <> key p ->
  timeSinceLastRun after !! k = timeSinceLastRun (metrics s) !! k /\
  lastRunDuration after !! k = lastRunDuration (metrics s) !! k /\
  runCount after !! k = runCount (metrics s) !! k /\
  forall st, status after !! (k.1, k.2, st) = status (metrics s) !! (k.1, k.2, st).
Proof.
  intros Hk. subst after. destruct k as [a b].
  poll_cases; cbn [timeSinceLastRun lastRunDuration runCount status
                   set_timeSinceLastRun touch_runCount];
    rewrite ?record_detail_timeSinceLastRun, ?record_detail_runCount,
      ?record_detail_lastRunDuration, ?lookup_gauge_Set, ?lookup_WithLabelValues;
    cbn [timeSinceLastRun lastRunDuration runCount status touch_runCount];
    rewrite ?lookup_WithLabelValues;
    repeat split; intros;
    rewrite ?record_detail_status_other by (left; exact Hk);
    try case_decide; try done; by destruct Hk.
Qed.

(** No poll changes the value a counter reads. *)
Lemma taskOnce_runCount (k : string * string) :
  default 0%nat (runCount after !! k) = default 0%nat (runCount (metrics s) !! k).
Proof.
  subst after.
  poll_cases; rewrite ?record_detail_runCount;
    cbn [runCount set_timeSinceLastRun touch_runCount];
    rewrite ?record_detail_runCount; cbn [runCount touch_runCount];
    rewrite ?lookup_WithLabelValues; try case_decide; subst; done.
Qed.

(** Once the project is found, the counter of the target exists. *)
Lemma taskOnce_runCount_key (gp : gitlab.Project) :
  gitlab.GetProject gc (Name p) = inl gp ->
  runCount after !! key p = Some (default 0%nat (runCount (metrics s) !! key p)).
Proof.
  intros Hgp. subst after.
  poll_cases; try discriminate; rewrite ?record_detail_runCount;
    cbn [runCount set_timeSinceLastRun touch_runCount];
    rewrite ?record_detail_runCount; cbn [runCount touch_runCount];
    rewrite lookup_WithLabelValues; by rewrite decide_True.
Qed.

(** A poll that observes no pipeline writes no gauge. *)
Lemma taskOnce_unobserved :
  observes (Build_Poll p gc now) = None ->
  timeSinceLastRun after = timeSinceLastRun (metrics s) /\
  lastRunDuration after = lastRunDuration (metrics s) /\
  status after = status (metrics s).
Proof.
  unfold observes; cbn [client target]. intros Hobs. subst after.
  poll_cases; try discriminate; done.
Qed.

End OnePoll.

(** ** Sequences of polls *)

Lemma for_range_cons {A} (x : A) (l : list A) (body : A -> M unit) (s : State) :
  for_range (x :: l) body s =
  match body x s with
  | Done _ s' => for_range l body s'
  | Exit s' => Exit s'
  | Panic s' => Panic s'
  end.
Proof. reflexivity. Qed.

Lemma for_range_app {A} (l1 l2 : list A) (body : A -> M unit) (s : State) :
  for_range (l1 ++ l2) body s =
  match for_range l1 body s with
  | Done _ s' => for_range l2 body s'
  | Exit s' => Exit s'
  | Panic s' => Panic s'
  end.
Proof.
  revert s. induction l1 as [|x l1 IH]; intros s; [reflexivity|].
  rewrite <- app_comm_cons, !for_range_cons.
  destruct (body x s); auto.
Qed.

(** A property of the registry kept by every poll of a history holds
    wherever the history ends. *)
Lemma run_polls_invariant (P : Registry -> Prop) (qs : list Poll) :
  Forall (fun q => forall s, P (metrics s) -> P (metrics (state_of (run_poll q s)))) qs ->
  forall s, P (metrics s) -> P (metrics (state_of (run_polls qs s))).
Proof.
  unfold run_polls.
  induction 1 as [|q qs Hq _ IH]; intros s Hs; [exact Hs|].
  rewrite for_range_cons. specialize (Hq s Hs).
  destruct (run_poll q s); auto.
Qed.

(** From its start a process never reads a counter above zero. *)
Lemma run_polls_runCount (qs : list Poll) (s : State) (k : string * string) :
  default 0%nat (runCount (metrics (state_of (run_polls qs s))) !! k) =
  default 0%nat (runCount (metrics s) !! k).
Proof.
  apply (run_polls_invariant
           (fun r => default 0%nat (runCount r !! k) =
                     default 0%nat (runCount (metrics s) !! k))); [|done].
  apply Forall_forall. intros q _ s' Hs'. unfold run_poll.
  by rewrite taskOnce_runCount.
Qed.

(** ** The counter [run_count] *)

(** C1.  The specification asks that a second, distinct snapshot of a
    target already seen adds exactly 1 to [run_count].  In the scenario of
    the specification the target [(proj-a, main)] is first seen with the
    pipeline 101 running, then polled with the same pipeline in status
    success: the status differs from the one seen before, the poll ends
    normally, and [run_count] still reads 0.  [lastPipeline] is nil at
    line 105 of every run of [taskOnce], so the increment of line 107 is
    never reached. *)
Theorem C1_second_distinct_snapshot_is_not_counted :
  let k := key Scenario.proj_a in
  let first := [Scenario.running_101] in
  let both := [Scenario.running_101; Scenario.success_101 42 60] in
  seen (metrics (state_of (run_polls first init_state))) k /\
  runCount (metrics (state_of (run_polls first init_state))) !! k = Some 0%nat /\
  is_Done (run_polls both init_state) = true /\
  runCount (metrics (state_of (run_polls both init_state))) !! k = Some 0%nat.
Proof.
  cbv zeta. split; [|split; [|split]].
  - exists (float64_of_int 0). by vm_compute.
  - by vm_compute.
  - by vm_compute.
  - by vm_compute.
Qed.

(** ** Targets that were never observed *)

Lemma never_observed_Forall (k : string * string) (qs : list Poll) :
  never_observed k qs = true ->
  Forall (fun q => key (target q) <> k \/ observes q = None) qs.
Proof.
  unfold never_observed. intros Hall.
  apply Forall_forall. intros q Hq.
  apply list_elem_of_In in Hq.
  pose proof (proj1 (forallb_forall _ _) Hall q Hq) as Hone.
  apply orb_true_iff in Hone as [Hne|Hno].
  - left. apply negb_true_iff, bool_decide_eq_false in Hne. exact Hne.
  - right. apply negb_true_iff, bool_decide_eq_false in Hno.
    destruct (observes q); [|done]. destruct Hno. by eexists.
Qed.

(** C2, as the specification states it, fails: the poll of a target whose
    list of pipelines is empty creates the [run_count] series of its key,
    at line 95 of [taskOnce]. *)
Lemma C2_counterexample :
  never_observed (key Scenario.proj_a) [Scenario.no_pipeline] = true /\
  ~ no_series (metrics (state_of (run_polls [Scenario.no_pipeline] init_state)))
      (key Scenario.proj_a).
Proof.
  split; [by vm_compute|].
  intros (_ & _ & Hcount & _). vm_compute in Hcount. discriminate.
Qed.

(** C2, amended.  For a target for which no pipeline was ever observed,
    the three gauge families [time_since_last_run], [last_run_duration]
    and [status] hold no series of its key, wherever the history of
    polls ends; the counter family [run_count] holds no series of the key
    either, or one that reads 0. *)
Theorem C2_unobserved_target_has_no_gauge_series
    (qs : list Poll) (k : string * string) :
  never_observed k qs = true ->
  let r := metrics (state_of (run_polls qs init_state)) in
  timeSinceLastRun r !! k = None /\
  lastRunDuration r !! k = None /\
  (forall st : string, status r !! (k.1, k.2, st) = None) /\
  (runCount r !! k = None \/ runCount r !! k = Some 0%nat).
Proof.
  intros Hnever r.
  assert (Hgauges :
    timeSinceLastRun r !! k = None /\ lastRunDuration r !! k = None /\
    forall st : string, status r !! (k.1, k.2, st) = None).
  { subst r.
    apply (run_polls_invariant (fun r =>
      timeSinceLastRun r !! k = None /\ lastRunDuration r !! k = None /\
      forall st : string, status r !! (k.1, k.2, st) = None)); [|done].
    eapply Forall_impl; [exact (never_observed_Forall _ _ Hnever)|].
    intros [t gc now] [Hne|Hno] s (Ht & Hd & Hs); unfold run_poll;
      cbn [target client instant] in *.
    - destruct (taskOnce_frame t gc now s k) as (-> & -> & _ & Hst); [done|].
      repeat split; try done. intros st. by rewrite Hst.
    - destruct (taskOnce_unobserved t gc now s Hno) as (-> & -> & ->). done. }
  destruct Hgauges as (Ht & Hd & Hs). repeat split; try done.
  pose proof (run_polls_runCount qs init_state k) as Hcount.
  fold r in Hcount. cbn in Hcount.
  destruct (runCount r !! k) as [n|]; [right|by left].
  cbn in Hcount. by subst n.
Qed.

Lemma C2_unobserved_target_witness :
  let r := metrics (state_of (run_polls [Scenario.no_pipeline] init_state)) in
  let k := key Scenario.proj_a in
  timeSinceLastRun r !! k = None /\
  lastRunDuration r !! k = None /\
  (forall st : string, status r !! (k.1, k.2, st) = None) /\
  (runCount r !! k = None \/ runCount r !! k = Some 0%nat).
Proof.
  apply (C2_unobserved_target_has_no_gauge_series
           [Scenario.no_pipeline] (key Scenario.proj_a)).
  vm_compute. reflexivity.
Defined.

(** ** The unchanged poll *)

(** C3.  The specification asks that a poll which sees the pipeline id
    and the status already stored leaves [last_run_duration] as it is and
    refreshes [time_since_last_run] from the stored snapshot, without
    fetching the detail again.  Two polls of [(proj-a, main)] list the
    pipeline 101 in status success; its detail reports a duration of 42
    at the first and of 60 at the second.  The second poll sends the
    detail request again and overwrites [last_run_duration] with 60; when
    that request fails, the second poll panics.  Nothing of a poll is
    kept for the next one: [lastPipeline] is local to [taskOnce]. *)
Theorem C3_unchanged_poll_fetches_and_overwrites :
  let k := key Scenario.proj_a in
  let a := Scenario.success_101 42 60 in
  let b := Scenario.success_101 60 120 in
  let b_failing :=
    Build_Poll Scenario.proj_a
      (Scenario.server [gitlab.Build_PipelineInfo 101 "success"] (inr "502 Bad Gateway"))
      (instant b) in
  let s1 := state_of (run_polls [a] init_state) in
  let s2 := state_of (run_polls [a; b] init_state) in
  observes a = Some (gitlab.Build_PipelineInfo 101 "success") /\
  observes b = Some (gitlab.Build_PipelineInfo 101 "success") /\
  lastRunDuration (metrics s1) !! k = Some (float64_of_int 42) /\
  lastRunDuration (metrics s2) !! k = Some (float64_of_int 60) /\
  calls s2 = calls s1 ++ [gitlab.CallGetProject "proj-a";
                          gitlab.CallListProjectPipelines 7 "main";
                          gitlab.CallGetPipeline 7 101] /\
  runCount (metrics s2) !! k = Some 0%nat /\
  is_Panic (run_polls [a; b_failing] init_state) = true.
Proof.
  cbv zeta. repeat split; by vm_compute.
Qed.

(** ** The status gauges *)










(** ** Wildcard entries *)




(** ** The empty list of pipelines *)

(** C6, as the specification states it, fails: the poll of a target whose
    list of pipelines is empty returns normally, and the registry it
    leaves is not the registry it found. *)
Lemma C6_counterexample :
  observes Scenario.no_pipeline = None /\
  is_Done (run_poll Scenario.no_pipeline init_state) = true /\
  metrics (state_of (run_poll Scenario.no_pipeline init_state)) <> metrics init_state.
Proof.
  split; [by vm_compute|split; [by vm_compute|]].
  intros Hsame.
  apply (f_equal (fun r => runCount r !! key Scenario.proj_a)) in Hsame.
  vm_compute in Hsame. discriminate.
Qed.

(** C6, amended.  When the list of pipelines of a target is empty, the
    poll returns normally and logs no error; it writes no gauge, the
    families [time_since_last_run], [last_run_duration] and [status] are
    left as they were; of the counter family it only makes sure the
    series of the target exists, created at 0 when it was absent and kept
    at its value otherwise. *)
Theorem C6_empty_list_writes_no_gauge (p : project) (gc : gitlab.Client)
    (now : Z) (s : State) (gp : gitlab.Project) :
  gitlab.GetProject gc (Name p) = inl gp ->
  gitlab.ListProjectPipelines gc (gitlab.Project_ID gp) (Ref p) = inl [] ->
  exists s',
    taskOnce p gc now s = Done tt s' /\
    logs s' = logs s ++ [polling_line p gp] /\
    timeSinceLastRun (metrics s') = timeSinceLastRun (metrics s) /\
    lastRunDuration (metrics s') = lastRunDuration (metrics s) /\
    status (metrics s') = status (metrics s) /\
    runCount (metrics s') !! key p =
      Some (default 0%nat (runCount (metrics s) !! key p)) /\
    forall k, k <> key p -> runCount (metrics s') !! k = runCount (metrics s) !! k.
Proof.
  intros Hgp Hlist. rewrite taskOnce_eq, Hgp, Hlist. cbv zeta.
  eexists. split; [reflexivity|]. cbn [metrics logs].
  repeat split.
  - cbn. rewrite lookup_WithLabelValues. by rewrite decide_True.
  - intros k Hk. cbn. rewrite lookup_WithLabelValues. by rewrite decide_False.
Qed.

Lemma C6_empty_list_witness :
  exists s',
    run_poll Scenario.no_pipeline init_state = Done tt s' /\
    timeSinceLastRun (metrics s') = ∅ /\
    lastRunDuration (metrics s') = ∅ /\
    status (metrics s') = ∅ /\
    runCount (metrics s') !! key Scenario.proj_a = Some 0%nat.
Proof.
  destruct (C6_empty_list_writes_no_gauge Scenario.proj_a
              (client Scenario.no_pipeline) (instant Scenario.no_pipeline)
              init_state Scenario.gp_a eq_refl eq_refl)
    as (s' & Hrun & _ & Ht & Hd & Hs & Hc & _).
  exists s'. repeat split; assumption.
Defined.

(** ** Errors of the platform *)

Lemma last_snoc_line (l : list LogLine) (x : LogLine) : last (l ++ [x]) = Some x.
Proof. apply last_snoc. Qed.

(** A poll that meets an error of the platform ends the process. *)
Lemma run_poll_platform_error (q : Poll) (line : LogLine) (s : State) :
  platform_error q = Some line ->
  exists s',
    run_poll q s = Exit s' /\ last (logs s') = Some line /\
    timeSinceLastRun (metrics s') = timeSinceLastRun (metrics s) /\
    lastRunDuration (metrics s') = lastRunDuration (metrics s) /\
    status (metrics s') = status (metrics s).
Proof.
  destruct q as [p gc now]. unfold platform_error, run_poll.
  cbn [target client instant]. rewrite taskOnce_eq.
  destruct (gitlab.GetProject gc (Name p)) as [gp|e].
  - destruct (gitlab.ListProjectPipelines gc (gitlab.Project_ID gp) (Ref p))
      as [l|e]; [discriminate|].
    intros [= <-]. eexists. split; [reflexivity|]. cbn [logs metrics].
    by rewrite last_snoc_line.
  - intros [= <-]. eexists. split; [reflexivity|]. cbn [logs metrics].
    by rewrite last_snoc_line.
Qed.

(** C7.  A poll whose project request or pipeline-list request fails
    ends in the exit of the process, with the line naming the project as
    the last line of the log and no gauge written; the polls that were to
    follow it do not run, and neither does the next pass of the loop of
    [task]. *)
Theorem C7_platform_error_is_fatal (q : Poll) (line : LogLine) :
  platform_error q = Some line ->
  (forall s : State,
     exists s', run_poll q s = Exit s' /\ last (logs s') = Some line /\
       timeSinceLastRun (metrics s') = timeSinceLastRun (metrics s) /\
       lastRunDuration (metrics s') = lastRunDuration (metrics s) /\
       status (metrics s') = status (metrics s)) /\
  (forall (pre rest : list Poll) (s s1 : State),
     run_polls pre s = Done tt s1 ->
     run_polls (pre ++ q :: rest) s = run_poll q s1 /\
     is_Done (run_poll q s1) = false /\ is_Panic (run_poll q s1) = false) /\
  (forall (cfg : config) (worlds : list (gitlab.Client * Z)) (s s1 s2 : State)
          (pre rest : list project),
     launch (client q) (Projects cfg) s = Done (pre ++ target q :: rest) s1 ->
     run_polls (map (fun t => Build_Poll t (client q) (instant q)) pre) s1 = Done tt s2 ->
     exists s', task cfg ((client q, instant q) :: worlds) s = Exit s' /\
                last (logs s') = Some line).
Proof.
  intros Herr. split; [|split].
  - intros s. by apply run_poll_platform_error.
  - intros pre rest s s1 Hpre.
    destruct (run_poll_platform_error q line s1 Herr) as (s' & Hrun & _).
    unfold run_polls. rewrite for_range_app. fold (run_polls pre). rewrite Hpre.
    rewrite for_range_cons, Hrun. done.
  - intros cfg worlds s s1 s2 pre rest Hlaunch Hpre.
    destruct (run_poll_platform_error q line s2 Herr) as (s' & Hrun & Hlast & _).
    exists s'. split; [|exact Hlast].
    unfold task. rewrite for_range_cons. cbn [fst snd].
    unfold task_cycle, mbind, M_bind. rewrite Hlaunch, map_app.
    unfold run_polls in *. rewrite for_range_app, Hpre. cbn [map].
    rewrite for_range_cons.
    replace (Build_Poll (target q) (client q) (instant q)) with q by by destruct q.
    by rewrite Hrun.
Qed.

Lemma C7_platform_error_witness :
  let q := Build_Poll (Build_project "proj-b" "main")
             (Scenario.server [] (inr "404 Not Found")) Scenario.T in
  exists s',
    run_poll q init_state = Exit s' /\
    last (logs s') = Some (project_error_line (target q) "404 Not Found") /\
    timeSinceLastRun (metrics s') = timeSinceLastRun (metrics init_state) /\
    lastRunDuration (metrics s') = lastRunDuration (metrics init_state) /\
    status (metrics s') = status (metrics init_state).
Proof.
  cbv zeta.
  exact (proj1 (C7_platform_error_is_fatal
                  (Build_Poll (Build_project "proj-b" "main")
                     (Scenario.server [] (inr "404 Not Found")) Scenario.T)
                  (project_error_line (Build_project "proj-b" "main") "404 Not Found")
                  eq_refl)
           init_state).
Defined.

(** ** Rounding to whole seconds *)

Section Rounding.

Import time.

Lemma wrap64_small (z : Z) :
  minDuration <= z <= maxDuration -> wrap64 z = z.
Proof.
  unfold wrap64, minDuration, maxDuration. intros Hz.
  rewrite Z.mod_small; lia.
Qed.

Lemma lessThanHalf_small (x y : Z) :
  0 <= x < Second -> 0 <= y <= Second ->
  lessThanHalf x y = (x + x <? y).
Proof.
  unfold lessThanHalf, Second. intros Hx Hy.
  rewrite !(Z.mod_small x), (Z.mod_small (x + x)), (Z.mod_small y); lia.
Qed.


Lemma Seconds_whole (v : Z) : Seconds (v * Second) = F64 v 0.
Proof.
  unfold Seconds. assert (Second <> 0) by (unfold Second; lia).
  by rewrite Z.quot_mul, Z.rem_mul.
Qed.

Lemma Since_in_range (now t : Z) :
  elapsed_in_range now t -> Since now t = now - t.
Proof.
  unfold elapsed_in_range, Since, Sub. intros Hrange.
  assert (0 < Second) by (unfold Second; lia).
  destruct (Z.ltb_spec (now - t) minDuration); [lia|].
  destruct (Z.ltb_spec maxDuration (now - t)); [lia|]. reflexivity.
Qed.

End Rounding.

(** ** The first snapshot, the elapsed time and the detail request *)

Lemma state_of_run_polls_snoc (qs : list Poll) (q : Poll) (s s1 : State) :
  run_polls qs s = Done tt s1 ->
  state_of (run_polls (qs ++ [q]) s) = state_of (run_poll q s1).
Proof.
  intros Hqs. unfold run_polls in *.
  rewrite for_range_app, Hqs, for_range_cons.
  by destruct (run_poll q s1) as [[] ?| |].
Qed.

(** C8.  The poll that observes the first pipeline of a target, after a
    history in which none was observed for it, leaves [run_count] at 0
    for the key of the target, whatever the id and the status of the
    pipeline and however the poll ends. *)
Theorem C8_first_snapshot_is_not_counted (qs : list Poll) (q : Poll) (s1 : State) :
  never_observed (key (target q)) qs = true ->
  run_polls qs init_state = Done tt s1 ->
  is_Some (observes q) ->
  let k := key (target q) in
  let r := metrics (state_of (run_polls (qs ++ [q]) init_state)) in
  default 0%nat (runCount (metrics s1) !! k) = 0%nat /\
  runCount r !! k = Some 0%nat.
Proof.
  intros _ Hqs [info Hobs]. cbv zeta.
  assert (Hzero : default 0%nat (runCount (metrics s1) !! key (target q)) = 0%nat).
  { pose proof (run_polls_runCount qs init_state (key (target q))) as Hcount.
    by rewrite Hqs in Hcount. }
  split; [exact Hzero|].
  rewrite (state_of_run_polls_snoc qs q init_state s1 Hqs).
  destruct q as [p gc now]. unfold observes in Hobs. unfold run_poll.
  cbn [target client instant] in *.
  destruct (gitlab.GetProject gc (Name p)) as [gp|e] eqn:Hgp; [|discriminate].
  rewrite (taskOnce_runCount_key p gc now s1 gp Hgp). by rewrite Hzero.
Qed.

Lemma C8_first_snapshot_witness :
  let k := key Scenario.proj_a in
  let r := metrics (state_of
             (run_polls ([Scenario.no_pipeline] ++ [Scenario.running_101]) init_state)) in
  default 0%nat
    (runCount (metrics (state_of (run_polls [Scenario.no_pipeline] init_state))) !! k)
    = 0%nat /\
  runCount r !! k = Some 0%nat.
Proof.
  cbv zeta.
  apply (C8_first_snapshot_is_not_counted [Scenario.no_pipeline] Scenario.running_101
           (state_of (run_polls [Scenario.no_pipeline] init_state))).
  - by vm_compute.
  - by vm_compute.
  - eexists. by vm_compute.
Defined.



(** C10.  On the path that updates the metrics (the project is found
    and the list of pipelines is not empty) the error of the detail
    request is dropped and its result dereferenced: the poll returns
    exactly when the request succeeds with a pipeline whose [CreatedAt]
    is not nil, and panics in every other case; a failed request leaves
    no line in the log. *)
Theorem C10_detail_is_dereferenced_unguarded
    (p : project) (gc : gitlab.Client) (now : Z) (s : State)
    (gp : gitlab.Project) (first : gitlab.PipelineInfo)
    (rest : list gitlab.PipelineInfo) :
  gitlab.GetProject gc (Name p) = inl gp ->
  gitlab.ListProjectPipelines gc (gitlab.Project_ID gp) (Ref p) = inl (first :: rest) ->
  let detail := gitlab.GetPipeline gc (gitlab.Project_ID gp) (gitlab.Info_ID first) in
  let safe := exists lp t, detail = inl lp /\ gitlab.Pipeline_CreatedAt lp = Some t in
  (is_Done (taskOnce p gc now s) = true <-> safe) /\
  (is_Panic (taskOnce p gc now s) = true <-> ~ safe) /\
  (forall e, detail = inr e ->
     is_Panic (taskOnce p gc now s) = true /\
     logs (state_of (taskOnce p gc now s)) = logs s ++ [polling_line p gp]).
Proof.
  intros Hgp Hlist detail safe. subst safe detail.
  rewrite taskOnce_eq, Hgp, Hlist. cbv zeta.
  destruct (gitlab.GetPipeline gc (gitlab.Project_ID gp) (gitlab.Info_ID first))
    as [lp|e].
  - destruct (gitlab.Pipeline_CreatedAt lp) as [t|] eqn:Hcreated; cbn.
    + split; [|split].
      * split; [intros _; by exists lp, t|done].
      * split; [done|]. intros Hnot. destruct Hnot. by exists lp, t.
      * intros e [=].
    + split; [|split].
      * split; [done|]. intros (lp' & t & [= <-] & Ht). congruence.
      * split; [|done]. intros _ (lp' & t & [= <-] & Ht). congruence.
      * intros e [=].
  - cbn. split; [|split].
    + split; [done|]. by intros (lp' & t & [=] & _).
    + split; [|done]. by intros _ (lp' & t & [=] & _).
    + intros e' _. done.
Qed.

Lemma C10_detail_witness :
  let q := Build_Poll Scenario.proj_a
             (Scenario.server [gitlab.Build_PipelineInfo 101 "success"]
                (inr "502 Bad Gateway")) Scenario.T in
  is_Panic (run_poll q init_state) = true /\
  logs (state_of (run_poll q init_state)) =
    logs init_state ++ [polling_line Scenario.proj_a Scenario.gp_a].
Proof.
  cbv zeta.
  exact (proj2 (proj2 (C10_detail_is_dereferenced_unguarded Scenario.proj_a
                  (Scenario.server [gitlab.Build_PipelineInfo 101 "success"]
                     (inr "502 Bad Gateway"))
                  Scenario.T init_state Scenario.gp_a
                  (gitlab.Build_PipelineInfo 101 "success") [] eq_refl eq_refl))
           "502 Bad Gateway" eq_refl).
Defined.

(** ** The registry after a poll, series by series *)

Lemma registry_eq (r r' : Registry) :
  (forall k, timeSinceLastRun r !! k = timeSinceLastRun r' !! k) ->
  (forall k, lastRunDuration r !! k = lastRunDuration r' !! k) ->
  (forall k, runCount r !! k = runCount r' !! k) ->
  (forall k, status r !! k = status r' !! k) ->
  r = r'.
Proof.
  destruct r, r'; cbn. intros Ht Hd Hc Hs.
  f_equal; by apply map_eq.
Qed.

(** A status gauge after a detail is recorded, whatever its label. *)
Lemma record_detail_status_lookup (p : project) (lp : gitlab.Pipeline)
    (r : Registry) (a b st : string) :
  status (record_detail p lp r) !! (a, b, st) =
  if decide ((a, b) = key p) then
    if bool_decide (st ∈ statuses)
    then Some (float64_of_int (if String.eqb st (gitlab.Pipeline_Status lp) then 1 else 0))
    else status r !! (a, b, st)
  else status r !! (a, b, st).
Proof.
  case_decide as Hk.
  - injection Hk as -> ->. case_bool_decide as Hst.
    + by apply record_detail_status.
    + apply record_detail_status_other. by right.
  - apply record_detail_status_other. by left.
Qed.

(** Case analysis on the answers of the server to the poll of [p]. *)
Ltac answers p gc :=
  rewrite ?taskOnce_eq;
  destruct (gitlab.GetProject gc (Name p)) as [?gp|?e] eqn:?Hgp;
    [match goal with
     | gp : gitlab.Project |- _ =>
         destruct (gitlab.ListProjectPipelines gc (gitlab.Project_ID gp) (Ref p))
           as [[|?first ?rest]|?e] eqn:?Hlist;
         [| match goal with
            | first : gitlab.PipelineInfo |- _ =>
                destruct (gitlab.GetPipeline gc (gitlab.Project_ID gp)
                            (gitlab.Info_ID first)) as [?lp|?e] eqn:?Hdetail;
                [match goal with
                 | lp : gitlab.Pipeline |- _ =>
                     destruct (gitlab.Pipeline_CreatedAt lp) as [?t|] eqn:?Hcreated
                 end|]
            end |]
     end|];
  cbn [state_of metrics logs calls pointer_of mbind option_bind].

Section Lookups.

Context (q : Poll) (s : State).

Let r : Registry := metrics s.
Let r' : Registry := metrics (state_of (run_poll q s)).
Let kq : string * string := key (target q).

Lemma run_poll_timeSinceLastRun (k : string * string) :
  timeSinceLastRun r' !! k =
  if decide (k = kq) then
    match written_time q with
    | Some v => Some v
    | None => timeSinceLastRun r !! k
    end
  else timeSinceLastRun r !! k.
Proof.
  subst r r' kq. destruct q as [p gc now]. unfold run_poll. cbn [target client instant].
  case_decide as Hk.
  - subst k. unfold written_time, detail_of, elapsed_seconds.
    cbn [target client instant].
    answers p gc; rewrite ?Hcreated; cbn [mbind option_bind]; try reflexivity.
    cbn [timeSinceLastRun set_timeSinceLastRun].
    rewrite lookup_gauge_Set. by rewrite decide_True.
  - by destruct (taskOnce_frame p gc now s k Hk) as (-> & _).
Qed.

Lemma run_poll_lastRunDuration (k : string * string) :
  lastRunDuration r' !! k =
  if decide (k = kq) then
    match written_duration q with
    | Some v => Some v
    | None => lastRunDuration r !! k
    end
  else lastRunDuration r !! k.
Proof.
  subst r r' kq. destruct q as [p gc now]. unfold run_poll. cbn [target client instant].
  case_decide as Hk.
  - subst k. unfold written_duration, detail_of. cbn [target client instant].
    answers p gc; try reflexivity;
      cbn [lastRunDuration set_timeSinceLastRun];
      rewrite record_detail_lastRunDuration; by rewrite decide_True.
  - by destruct (taskOnce_frame p gc now s k Hk) as (_ & -> & _).
Qed.

Lemma run_poll_runCount (k : string * string) :
  runCount r' !! k =
  if decide (k = kq) then
    if resolves q then Some (default 0%nat (runCount r !! k)) else runCount r !! k
  else runCount r !! k.
Proof.
  subst r r' kq. destruct q as [p gc now]. unfold run_poll. cbn [target client instant].
  case_decide as Hk.
  - subst k. unfold resolves. cbn [target client].
    destruct (gitlab.GetProject gc (Name p)) as [gp|e] eqn:Hgp.
    + by apply (taskOnce_runCount_key p gc now s gp).
    + by rewrite taskOnce_eq, Hgp.
  - by destruct (taskOnce_frame p gc now s k Hk) as (_ & _ & -> & _).
Qed.

Lemma run_poll_status (a b st : string) :
  status r' !! (a, b, st) =
  if decide ((a, b) = kq) then
    match written_status q st with
    | Some v => Some v
    | None => status r !! (a, b, st)
    end
  else status r !! (a, b, st).
Proof.
  subst r r' kq. destruct q as [p gc now]. unfold run_poll. cbn [target client instant].
  case_decide as Hk.
  - unfold written_status, detail_of. cbn [target client instant].
    answers p gc; try reflexivity;
      cbn [status set_timeSinceLastRun];
      rewrite record_detail_status_lookup, decide_True by done;
      by case_bool_decide.
  - destruct (taskOnce_frame p gc now s (a, b) Hk) as (_ & _ & _ & Hst). apply Hst.
Qed.

End Lookups.

(** The registry a poll leaves depends on the registry it finds only. *)
Lemma run_poll_effect (q : Poll) (s : State) :
  metrics (state_of (run_poll q s)) = effect q (metrics s).
Proof.
  unfold effect. apply registry_eq.
  - intros k. by rewrite !run_poll_timeSinceLastRun.
  - intros k. by rewrite !run_poll_lastRunDuration.
  - intros k. by rewrite !run_poll_runCount.
  - intros [[a b] st]. by rewrite !run_poll_status.
Qed.

(** Whether a poll returns depends on the answers of the server only. *)
Lemma run_poll_returns (q : Poll) (s : State) :
  is_Done (run_poll q s) = returns q.
Proof.
  unfold returns, run_poll. destruct q as [p gc now]. cbn [target client instant].
  answers p gc; reflexivity.
Qed.

Lemma run_poll_Done (q : Poll) (s : State) :
  returns q = true -> exists s', run_poll q s = Done tt s'.
Proof.
  rewrite <- (run_poll_returns q s).
  destruct (run_poll q s) as [[] s'| |]; [by exists s'|done|done].
Qed.

(** The registry after a history of polls that all return. *)
Lemma run_polls_effects (qs : list Poll) (s : State) :
  Forall (fun q => returns q = true) qs ->
  exists s', run_polls qs s = Done tt s' /\
             metrics s' = foldl (fun r q => effect q r) (metrics s) qs.
Proof.
  intros Hall. revert s. induction Hall as [|q qs Hq _ IH]; intros s.
  - by exists s.
  - unfold run_polls in *. rewrite for_range_cons.
    destruct (run_poll_Done q s Hq) as (s1 & Hrun). rewrite Hrun.
    destruct (IH s1) as (s' & -> & Hm). exists s'. split; [done|].
    cbn [foldl]. rewrite Hm. f_equal.
    rewrite <- (run_poll_effect q s). by rewrite Hrun.
Qed.

Section Effects.

Context (r : Registry).

Lemma effect_timeSinceLastRun (q : Poll) (k : string * string) :
  timeSinceLastRun (effect q r) !! k =
  if decide (k = key (target q)) then
    match written_time q with
    | Some v => Some v
    | None => timeSinceLastRun r !! k
    end
  else timeSinceLastRun r !! k.
Proof. apply (run_poll_timeSinceLastRun q (Build_State r [] [])). Qed.

Lemma effect_lastRunDuration (q : Poll) (k : string * string) :
  lastRunDuration (effect q r) !! k =
  if decide (k = key (target q)) then
    match written_duration q with
    | Some v => Some v
    | None => lastRunDuration r !! k
    end
  else lastRunDuration r !! k.
Proof. apply (run_poll_lastRunDuration q (Build_State r [] [])). Qed.

Lemma effect_runCount (q : Poll) (k : string * string) :
  runCount (effect q r) !! k =
  if decide (k = key (target q)) then
    if resolves q then Some (default 0%nat (runCount r !! k)) else runCount r !! k
  else runCount r !! k.
Proof. apply (run_poll_runCount q (Build_State r [] [])). Qed.

Lemma effect_status (q : Poll) (a b st : string) :
  status (effect q r) !! (a, b, st) =
  if decide ((a, b) = key (target q)) then
    match written_status q st with
    | Some v => Some v
    | None => status r !! (a, b, st)
    end
  else status r !! (a, b, st).
Proof. apply (run_poll_status q (Build_State r [] [])). Qed.

End Effects.

(** Polls of targets with different keys commute. *)
Lemma effect_comm (q1 q2 : Poll) (r : Registry) :
  key (target q1) <> key (target q2) ->
  effect q1 (effect q2 r) = effect q2 (effect q1 r).
Proof.
  intros Hkeys. apply registry_eq.
  - intros k. rewrite !effect_timeSinceLastRun.
    repeat case_decide; try done; congruence.
  - intros k. rewrite !effect_lastRunDuration.
    repeat case_decide; try done; congruence.
  - intros k. rewrite !effect_runCount.
    repeat case_decide; try done; congruence.
  - intros [[a b] st]. rewrite !effect_status.
    repeat case_decide; try done; congruence.
Qed.

(** A poll run again on what it left changes nothing. *)
Lemma effect_idemp (q : Poll) (r : Registry) :
  effect q (effect q r) = effect q r.
Proof.
  apply registry_eq.
  - intros k. rewrite !effect_timeSinceLastRun.
    case_decide; [|done]. by destruct (written_time q).
  - intros k. rewrite !effect_lastRunDuration.
    case_decide; [|done]. by destruct (written_duration q).
  - intros k. rewrite !effect_runCount.
    case_decide; [|done]. by destruct (resolves q).
  - intros [[a b] st]. rewrite !effect_status.
    case_decide; [|done]. by destruct (written_status q st).
Qed.

Lemma foldl_effect_perm (qs qs' : list Poll) :
  qs ≡ₚ qs' ->
  NoDup (map (fun q => key (target q)) qs) ->
  forall r, foldl (fun r q => effect q r) r qs = foldl (fun r q => effect q r) r qs'.
Proof.
  induction 1 as [|q qs qs' Hperm IH|q1 q2 qs|qs1 qs2 qs3 H12 IH12 H23 IH23];
    intros Hnodup r.
  - reflexivity.
  - cbn [foldl]. apply IH. cbn [map] in Hnodup. by apply NoDup_cons in Hnodup as [_ ?].
  - cbn [foldl]. f_equal. apply effect_comm.
    cbn [map] in Hnodup. apply NoDup_cons in Hnodup as [Hnotin _].
    intros Heq. apply Hnotin. rewrite Heq. apply elem_of_cons. by left.
  - rewrite IH12 by done. apply IH23.
    assert (Hmap : map (fun q => key (target q)) qs1 ≡ₚ
                   map (fun q => key (target q)) qs2) by by apply Permutation_map.
    by rewrite <- Hmap.
Qed.

(** ** The loop of [task] *)

(** Starting the goroutines of a pass writes no metric, however the pass
    ends. *)
Lemma launch_metrics (gc : gitlab.Client) (ps : list project) (s : State) :
  metrics (state_of (launch gc ps s)) = metrics s.
Proof.
  revert s. induction ps as [|p ps IH]; intros s; [reflexivity|].
  cbn [launch]. unfold mbind, M_bind, mret, M_ret, request, log_Printf, log_Fatalf.
  destruct (String.eqb (Name p) "*").
  - destruct (gitlab.ListProjects gc) as [owned|e]; [|reflexivity].
    match goal with
    | |- context [launch gc ps ?s1] =>
        specialize (IH s1); destruct (launch gc ps s1); exact IH
    end.
  - specialize (IH s). destruct (launch gc ps s); exact IH.
Qed.

(** A property of the registry kept by every poll holds wherever the loop
    of [task] ends. *)
Lemma task_invariant (P : Registry -> Prop) :
  (forall q s, P (metrics s) -> P (metrics (state_of (run_poll q s)))) ->
  forall (cfg : config) (worlds : list (gitlab.Client * Z)) (s : State),
    P (metrics s) -> P (metrics (state_of (task cfg worlds s))).
Proof.
  intros Hpoll cfg worlds. unfold task.
  induction worlds as [|[gc now] worlds IH]; intros s Hs; [exact Hs|].
  rewrite for_range_cons. cbn [fst snd].
  assert (Hcycle : P (metrics (state_of (task_cycle cfg gc now s)))).
  { unfold task_cycle, mbind, M_bind.
    pose proof (launch_metrics gc (Projects cfg) s) as Hlaunch.
    destruct (launch gc (Projects cfg) s) as [ts s1|s1|s1];
      cbn [state_of] in *; try (by rewrite Hlaunch).
    apply run_polls_invariant; [|by rewrite Hlaunch].
    apply Forall_forall. intros q _. apply Hpoll. }
  destruct (task_cycle cfg gc now s) as [[] s1|s1|s1]; cbn [state_of] in *; auto.
Qed.

(** X1.  Whatever the configuration and whatever the server answers,
    pass after pass, every series of [run_count] reads 0: no run of the
    loop of [task] ever increments the counter. *)
Theorem X1_run_count_is_never_incremented
    (cfg : config) (worlds : list (gitlab.Client * Z)) (k : string * string) :
  default 0%nat (runCount (metrics (state_of (task cfg worlds init_state))) !! k) = 0%nat.
Proof.
  apply (task_invariant (fun r => default 0%nat (runCount r !! k) = 0%nat)); [|done].
  intros q s Hs. unfold run_poll. by rewrite taskOnce_runCount.
Qed.

(** X2.  A poll reads the newest entry of the list of pipelines only:
    served by a client that drops every other entry of every list, it
    ends in the same state. *)
Theorem X2_only_the_newest_pipeline_is_read
    (p : project) (gc : gitlab.Client) (now : Z) (s : State) :
  taskOnce p (newest_only gc) now s = taskOnce p gc now s.
Proof.
  rewrite !taskOnce_eq. cbn [newest_only gitlab.GetProject
    gitlab.ListProjectPipelines gitlab.GetPipeline].
  destruct (gitlab.GetProject gc (Name p)) as [gp|e]; [|reflexivity].
  by destruct (gitlab.ListProjectPipelines gc (gitlab.Project_ID gp) (Ref p))
    as [[|first rest]|e].
Qed.




(** ** Polls that repeat and polls that race *)

(** X4.  A poll keeps nothing of the registry it finds but the value of
    the counter: run a second time with the same answers at the same
    instant, it leaves the registry the first run left. *)
Theorem X4_poll_is_idempotent (q : Poll) (s : State) :
  metrics (state_of (run_polls [q; q] s)) = metrics (state_of (run_poll q s)).
Proof.
  unfold run_polls. rewrite for_range_cons.
  destruct (run_poll q s) as [[] s1| |] eqn:Hfirst; try reflexivity.
  rewrite for_range_cons. cbn [state_of].
  assert (Hsecond : metrics (state_of (run_poll q s1)) = metrics s1).
  { rewrite run_poll_effect.
    replace (metrics s1) with (effect q (metrics s))
      by (by rewrite <- run_poll_effect, Hfirst).
    apply effect_idemp. }
  by destruct (run_poll q s1) as [[] s2| |].
Qed.

(** X5.  The registry a pass leaves does not depend on the order in
    which the polls of different targets run: two orders of the same
    polls, all of which return and no two of which share a key, end in
    the same registry. *)
Theorem X5_polls_of_different_targets_commute (qs qs' : list Poll) (s : State) :
  qs ≡ₚ qs' ->
  NoDup (map (fun q => key (target q)) qs) ->
  Forall (fun q => returns q = true) qs ->
  is_Done (run_polls qs s) = true /\
  is_Done (run_polls qs' s) = true /\
  metrics (state_of (run_polls qs s)) = metrics (state_of (run_polls qs' s)).
Proof.
  intros Hperm Hnodup Hall.
  assert (Hall' : Forall (fun q => returns q = true) qs') by by rewrite <- Hperm.
  destruct (run_polls_effects qs s Hall) as (s1 & -> & H1).
  destruct (run_polls_effects qs' s Hall') as (s2 & -> & H2).
  cbn [is_Done state_of]. repeat split.
  rewrite H1, H2. by apply foldl_effect_perm.
Qed.

Lemma X5_polls_commute_witness :
  let a := Scenario.running_101 in
  let b := Build_Poll (Build_project "proj-a" "develop") (client Scenario.pending_102)
             (instant Scenario.pending_102) in
  metrics (state_of (run_polls [a; b] init_state)) =
  metrics (state_of (run_polls [b; a] init_state)).
Proof.
  cbv zeta.
  apply (X5_polls_of_different_targets_commute
           [Scenario.running_101;
            Build_Poll (Build_project "proj-a" "develop") (client Scenario.pending_102)
              (instant Scenario.pending_102)]
           [Build_Poll (Build_project "proj-a" "develop") (client Scenario.pending_102)
              (instant Scenario.pending_102);
            Scenario.running_101]
           init_state).
  - apply perm_swap.
  - cbn [map]. apply NoDup_cons. split.
    + intros Hin. apply list_elem_of_singleton in Hin. discriminate Hin.
    + apply NoDup_singleton.
  - repeat constructor.
Defined.

(** ** Series are never removed *)

Lemma series_kept_refl (r : Registry) : series_kept r r.
Proof. by repeat split. Qed.

Lemma series_kept_trans (r1 r2 r3 : Registry) :
  series_kept r1 r2 -> series_kept r2 r3 -> series_kept r1 r3.
Proof.
  intros (Ht & Hd & Hc & Hs) (Ht' & Hd' & Hc' & Hs'). repeat split; auto.
Qed.

Lemma run_poll_series_kept (q : Poll) (s : State) :
  series_kept (metrics s) (metrics (state_of (run_poll q s))).
Proof.
  repeat split.
  - intros k Hk. rewrite run_poll_timeSinceLastRun.
    case_decide; [|done]. by destruct (written_time q).
  - intros k Hk. rewrite run_poll_lastRunDuration.
    case_decide; [|done]. by destruct (written_duration q).
  - intros k Hk. rewrite run_poll_runCount.
    case_decide; [|done]. by destruct (resolves q).
  - intros [[a b] st] Hk. rewrite run_poll_status.
    case_decide; [|done]. by destruct (written_status q st).
Qed.

(** X6.  The loop of [task] never removes a series: every series of
    the four families present when it starts is present wherever it ends,
    also when a poll exits or panics. *)
Theorem X6_series_are_never_removed
    (cfg : config) (worlds : list (gitlab.Client * Z)) (s : State) :
  series_kept (metrics s) (metrics (state_of (task cfg worlds s))).
Proof.
  apply (task_invariant (series_kept (metrics s))); [|apply series_kept_refl].
  intros q s1 Hs1. eapply series_kept_trans; [exact Hs1|].
  apply run_poll_series_kept.
Qed.

(** ** The ownership request *)





(** ** The start of the process *)

(** X8.  [main] reaches the loop of [task] only with a configuration
    that was read, parsed and lists at least one project: if the process
    returns, sent a request or wrote a metric, the configuration was such
    a one; and with an empty list of projects it exits on the line that
    asks for one, before any request. *)
Theorem X8_main_refuses_an_empty_configuration
    (configFile : string + string)
    (unmarshal : string -> (GitlabSettings * config) + string)
    (worlds : list (gitlab.Client * Z)) (s : State) :
  let outcome := main configFile unmarshal worlds s in
  (is_Done outcome = true \/ calls (state_of outcome) <> calls s \/
   metrics (state_of outcome) <> metrics s ->
   exists content settings cfg,
     configFile = inl content /\ unmarshal content = inl (settings, cfg) /\
     Projects cfg <> []) /\
  (forall content settings cfg,
     configFile = inl content -> unmarshal content = inl (settings, cfg) ->
     Projects cfg = [] ->
     outcome =
     Exit (Build_State (metrics s)
             (logs s ++
              [Build_LogLine
                 "You need to configure at least one project/ref to poll, none given" []])
             (calls s))).
Proof.
  cbv zeta. unfold main. split.
  - destruct configFile as [content|e].
    + destruct (unmarshal content) as [[settings cfg]|e] eqn:Hparse.
      * destruct (Projects cfg) as [|p ps] eqn:Hprojects.
        -- cbn. intros [?|[?|?]]; done.
        -- intros _. exists content, settings, cfg. by rewrite Hprojects.
      * cbn. intros [?|[?|?]]; done.
    + cbn. intros [?|[?|?]]; done.
  - intros content settings cfg -> Hparse Hempty. by rewrite Hparse, Hempty.
Qed.

(** ** The sign and the growth of the elapsed time *)

Section Elapsed.

Import time.

(** Rounding to the second, halfway values away from zero. *)
Lemma Round_Second_away (d : Z) :
  minDuration + Second <= d <= maxDuration - Second ->
  exists v : Z,
    Round d Second = v * Second /\
    (0 <= d -> - Second <= 2 * (d - v * Second) < Second) /\
    (d < 0 -> - Second < 2 * (d - v * Second) <= Second).
Proof.
  intros Hd. unfold Round.
  assert (Hpos : 0 < Second) by (unfold Second; lia).
  destruct (Z.leb_spec Second 0) as [?|_]; [lia|].
  pose proof (Z.quot_rem' d Second) as Hqr.
  set (q := Z.quot d Second) in *. set (r := Z.rem d Second) in *.
  unfold minDuration, maxDuration in Hd.
  destruct (Z.ltb_spec d 0) as [Hneg|Hnonneg].
  - assert (Hr : - Second < r <= 0) by (apply Z.rem_bound_pos_neg; lia).
    rewrite (wrap64_small (- r)) by (unfold minDuration, maxDuration, Second in *; lia).
    rewrite lessThanHalf_small by lia.
    destruct (Z.ltb_spec (- r + - r) Second) as [Hhalf|Hhalf].
    + exists q. rewrite wrap64_small
        by (unfold minDuration, maxDuration, Second in *; lia). lia.
    + rewrite wrap64_small by (unfold minDuration, maxDuration, Second in *; lia).
      destruct (Z.ltb_spec (d - Second + - r) d) as [_|?]; [|lia].
      exists (q - 1). lia.
  - assert (Hr : 0 <= r < Second) by (apply Z.rem_bound_pos; lia).
    rewrite lessThanHalf_small by lia.
    destruct (Z.ltb_spec (r + r) Second) as [Hhalf|Hhalf].
    + exists q. rewrite wrap64_small
        by (unfold minDuration, maxDuration, Second in *; lia). lia.
    + rewrite wrap64_small by (unfold minDuration, maxDuration, Second in *; lia).
      destruct (Z.ltb_spec d (d + Second - r)) as [_|?]; [|lia].
      exists (q + 1). lia.
Qed.

(** The seconds reported, for an elapsed time in range. *)
Lemma elapsed_seconds_whole (now t : Z) :
  elapsed_in_range now t ->
  exists v : Z,
    elapsed_seconds now t = F64 v 0 /\
    (0 <= v <-> - Second < 2 * (now - t)) /\
    (0 <= now - t -> - Second <= 2 * (now - t - v * Second) < Second) /\
    (now - t < 0 -> - Second < 2 * (now - t - v * Second) <= Second).
Proof.
  intros Hrange. unfold elapsed_seconds.
  rewrite (Since_in_range now t Hrange).
  destruct (Round_Second_away (now - t) Hrange) as (v & -> & Hpos & Hneg).
  exists v. rewrite Seconds_whole. split; [reflexivity|].
  assert (0 < Second) by (unfold Second; lia).
  split; [|split; assumption].
  destruct (Z_lt_le_dec (now - t) 0) as [Hlt|Hge].
  - specialize (Hneg Hlt). split; intros; nia.
  - specialize (Hpos Hge). split; intros; nia.
Qed.

Lemma elapsed_seconds_mono (now1 now2 t : Z) :
  elapsed_in_range now1 t -> elapsed_in_range now2 t -> now1 <= now2 ->
  whole (elapsed_seconds now1 t) <= whole (elapsed_seconds now2 t).
Proof.
  intros H1 H2 Hle.
  destruct (elapsed_seconds_whole now1 t H1) as (v1 & E1 & _ & Hp1 & Hn1).
  destruct (elapsed_seconds_whole now2 t H2) as (v2 & E2 & _ & Hp2 & Hn2).
  rewrite E1, E2. cbn [whole].
  assert (0 < Second) by (unfold Second; lia).
  destruct (Z_lt_le_dec (now1 - t) 0) as [Hlt1|Hge1];
    destruct (Z_lt_le_dec (now2 - t) 0) as [Hlt2|Hge2];
    try specialize (Hn1 Hlt1); try specialize (Hp1 Hge1);
    try specialize (Hn2 Hlt2); try specialize (Hp2 Hge2); nia.
Qed.

End Elapsed.

Lemma run_poll_written_time (q : Poll) (lp : gitlab.Pipeline) (t : Z) (s : State) :
  detail_of q = Some lp ->
  gitlab.Pipeline_CreatedAt lp = Some t ->
  timeSinceLastRun (metrics (state_of (run_poll q s))) !! key (target q) =
  Some (elapsed_seconds (instant q) t).
Proof.
  intros Hdetail Hcreated.
  rewrite run_poll_timeSinceLastRun, decide_True by done.
  unfold written_time. rewrite Hdetail. cbn. by rewrite Hcreated.
Qed.

(** X9.  The gauge [time_since_last_run] is not clamped: after a poll
    that fetched a pipeline created at [t] it reads a whole number of
    seconds that is negative exactly when [t] is ahead of the instant of
    the poll by half a second or more. *)
Theorem X9_time_since_last_run_may_be_negative
    (q : Poll) (lp : gitlab.Pipeline) (t : Z) (s : State) :
  detail_of q = Some lp ->
  gitlab.Pipeline_CreatedAt lp = Some t ->
  elapsed_in_range (instant q) t ->
  exists v : Z,
    timeSinceLastRun (metrics (state_of (run_poll q s))) !! key (target q) =
      Some (F64 v 0) /\
    (v < 0 <-> instant q - t <= - 500000000).
Proof.
  intros Hdetail Hcreated Hrange.
  destruct (elapsed_seconds_whole (instant q) t Hrange) as (v & Hv & Hsign & _).
  exists v. split.
  - rewrite (run_poll_written_time q lp t s Hdetail Hcreated). by rewrite Hv.
  - unfold time.Second in Hsign. lia.
Qed.

Lemma X9_time_since_last_run_witness :
  let q := Build_Poll Scenario.proj_a (client Scenario.running_101)
             (Scenario.T - 500000000) in
  exists v : Z,
    timeSinceLastRun (metrics (state_of (run_poll q init_state)))
      !! key Scenario.proj_a = Some (F64 v 0) /\
    (v < 0 <-> Scenario.T - 500000000 - Scenario.T <= - 500000000).
Proof.
  cbv zeta.
  apply (X9_time_since_last_run_may_be_negative
           (Build_Poll Scenario.proj_a (client Scenario.running_101)
              (Scenario.T - 500000000))
           (gitlab.Build_Pipeline 101 "running" 0 (Some Scenario.T))
           Scenario.T init_state eq_refl eq_refl).
  unfold elapsed_in_range. vm_compute. split; discriminate.
Defined.

(** X10.  Of two polls that fetch a pipeline with the same creation
    time, the later one never reports fewer seconds in
    [time_since_last_run]. *)
Theorem X10_time_since_last_run_grows
    (q1 q2 : Poll) (lp1 lp2 : gitlab.Pipeline) (t : Z) (s1 s2 : State) :
  detail_of q1 = Some lp1 -> gitlab.Pipeline_CreatedAt lp1 = Some t ->
  detail_of q2 = Some lp2 -> gitlab.Pipeline_CreatedAt lp2 = Some t ->
  elapsed_in_range (instant q1) t -> elapsed_in_range (instant q2) t ->
  instant q1 <= instant q2 ->
  exists v1 v2 : float64,
    timeSinceLastRun (metrics (state_of (run_poll q1 s1))) !! key (target q1) = Some v1 /\
    timeSinceLastRun (metrics (state_of (run_poll q2 s2))) !! key (target q2) = Some v2 /\
    whole v1 <= whole v2 /\ nanos v1 = 0 /\ nanos v2 = 0.
Proof.
  intros Hd1 Hc1 Hd2 Hc2 Hr1 Hr2 Hle.
  exists (elapsed_seconds (instant q1) t), (elapsed_seconds (instant q2) t).
  split; [by apply (run_poll_written_time q1 lp1)|].
  split; [by apply (run_poll_written_time q2 lp2)|].
  split; [by apply elapsed_seconds_mono|].
  destruct (elapsed_seconds_whole (instant q1) t Hr1) as (v1 & -> & _).
  destruct (elapsed_seconds_whole (instant q2) t Hr2) as (v2 & -> & _).
  done.
Qed.

Lemma X10_time_since_last_run_witness :
  exists v1 v2 : float64,
    timeSinceLastRun (metrics (state_of (run_poll (Scenario.success_101 42 60) init_state)))
      !! key Scenario.proj_a = Some v1 /\
    timeSinceLastRun (metrics (state_of (run_poll (Scenario.success_101 42 120) init_state)))
      !! key Scenario.proj_a = Some v2 /\
    whole v1 <= whole v2 /\ nanos v1 = 0 /\ nanos v2 = 0.
Proof.
  apply (X10_time_since_last_run_grows
           (Scenario.success_101 42 60) (Scenario.success_101 42 120)
           (gitlab.Build_Pipeline 101 "success" 42 (Some Scenario.T))
           (gitlab.Build_Pipeline 101 "success" 42 (Some Scenario.T))
           Scenario.T init_state init_state eq_refl eq_refl eq_refl eq_refl).
  - unfold elapsed_in_range. vm_compute. split; discriminate.
  - unfold elapsed_in_range. vm_compute. split; discriminate.
  - vm_compute. discriminate.
Defined.

(** ** The last write wins *)

Lemma written_status_statuses (q : Poll) (st : string) (v : float64) :
  written_status q st = Some v -> st ∈ statuses.
Proof.
  unfold written_status. destruct (detail_of q) as [lp|]; [|done]. cbn.
  by case_bool_decide.
Qed.

Lemma written_time_complete (q : Poll) (v : float64) :
  written_time q = Some v ->
  resolves q = true /\ is_Some (written_duration q) /\
  forall st : string, st ∈ statuses -> is_Some (written_status q st).
Proof.
  unfold written_time, written_duration, written_status, resolves, detail_of.
  destruct (gitlab.GetProject (client q) (Name (target q))) as [gp|e]; [|done].
  destruct (gitlab.ListProjectPipelines (client q) (gitlab.Project_ID gp)
              (Ref (target q))) as [[|first rest]|e]; try done.
  destruct (pointer_of (gitlab.GetPipeline (client q) (gitlab.Project_ID gp)
                          (gitlab.Info_ID first))) as [lp|]; [|done].
  cbn. intros _. repeat split; [by eexists|].
  intros st Hst. rewrite bool_decide_eq_true_2 by done. by eexists.
Qed.

(** X11.  A poll that runs to its end on a pipeline overwrites all that
    earlier polls of the same key wrote: after it the registry is the one
    it would have left had the earlier poll not run. *)
Theorem X11_the_last_poll_of_a_target_wins (q1 q2 : Poll) (s : State) :
  key (target q1) = key (target q2) ->
  returns q1 = true ->
  is_Some (written_time q2) ->
  metrics (state_of (run_polls [q1; q2] s)) = metrics (state_of (run_poll q2 s)).
Proof.
  intros Hkey Hret [v Hv].
  destruct (written_time_complete q2 v Hv) as (Hres & [d Hd] & Hst).
  unfold run_polls. rewrite for_range_cons.
  destruct (run_poll_Done q1 s Hret) as (s1 & Hrun1).
  rewrite Hrun1, for_range_cons.
  assert (Hs1 : metrics s1 = effect q1 (metrics s))
    by (by rewrite <- run_poll_effect, Hrun1).
  transitivity (metrics (state_of (run_poll q2 s1)));
    [by destruct (run_poll q2 s1) as [[] ?| |]|].
  rewrite !run_poll_effect, Hs1. apply registry_eq.
  - intros k. rewrite !effect_timeSinceLastRun, Hv, Hkey. by case_decide.
  - intros k. rewrite !effect_lastRunDuration, Hd, Hkey. by case_decide.
  - intros k. rewrite !effect_runCount, Hres, Hkey.
    case_decide; [|done]. by destruct (resolves q1).
  - intros [[a b] st]. rewrite !effect_status, Hkey.
    case_decide; [|done].
    destruct (written_status q2 st) as [w|] eqn:Hw; [done|].
    destruct (written_status q1 st) as [w|] eqn:Hw1; [|done].
    apply written_status_statuses in Hw1. destruct (Hst st Hw1) as [w' Hw'].
    congruence.
Qed.

Lemma X11_the_last_poll_wins_witness :
  metrics (state_of (run_polls [Scenario.running_101; Scenario.success_101 42 60]
                       init_state)) =
  metrics (state_of (run_poll (Scenario.success_101 42 60) init_state)).
Proof.
  apply (X11_the_last_poll_of_a_target_wins
           Scenario.running_101 (Scenario.success_101 42 60) init_state eq_refl).
  - by vm_compute.
  - eexists. by vm_compute.
Defined.

(** ** The requests of a poll *)

Ltac solve_no_ownership :=
  let Hin := fresh "Hin" in
  intros Hin;
  repeat (apply elem_of_cons in Hin as [Hin|Hin]; [discriminate Hin|]);
  by apply elem_of_nil in Hin.

(** X12.  A poll sends one to three requests and never the ownership
    request: the project, then the list of its pipelines when the project
    is found, then the detail of the first pipeline when the list holds
    one. *)
Theorem X12_a_poll_sends_at_most_three_requests (q : Poll) (s : State) :
  exists sent : list gitlab.Call,
    calls (state_of (run_poll q s)) = calls s ++ sent /\
    (1 <= length sent)%nat /\ (length sent <= 3)%nat /\
    (gitlab.CallListProjects ∉ sent) /\
    ((2 <= length sent)%nat <-> resolves q = true) /\
    (length sent = 3%nat <-> is_Some (observes q)).
Proof.
  destruct q as [p gc now]. unfold run_poll, resolves, observes.
  cbn [target client instant].
  answers p gc;
    rewrite <- ?(assoc_L (++));
    (eexists; split; [reflexivity|]); cbn [length app];
    (split; [lia|]); (split; [lia|]); (split; [solve_no_ownership|]);
    split; split; intros Hyp; try lia; try done; try (by eexists);
    by destruct Hyp.
Qed.
